(** * pxeboot_hpilo: boot a host once into PXE mode through HP iLO

    A shallow embedding of [run_module] of [pxeboot_hpilo.py] and the
    properties of its natural-language specification.

    The module talks to two libraries that are not part of the repository:
    Ansible's [AnsibleModule] and the [hpilo] client.  The first is modelled
    by what it does with the [module_args] the source hands to it; the
    second is an interface ([Hpilo]) the laws quantify over, with one
    executable instance (a simulated controller driven by a fault script)
    used to run the scenarios. *)

From Stdlib Require Import String Ascii List Bool ZArith Lia.
Import ListNotations.
Open Scope string_scope.

Set Implicit Arguments.

(** ** Python strings *)

Module PyStr.

(** [str.upper] on one character.  Only the ASCII letters are mapped; the
    values the module ever passes through it are ASCII. *)
Definition upper_char (c : ascii) : ascii :=
  let n := nat_of_ascii c in
  if (97 <=? n)%nat && (n <=? 122)%nat then ascii_of_nat (n - 32) else c.

Fixpoint upper (s : string) : string :=
  match s with
  | EmptyString => EmptyString
  | String c s' => String (upper_char c) (upper s')
  end.

(** [s.replace(old, new)] for one-character [old] and [new]: every
    occurrence is replaced. *)
Fixpoint replace (old new : ascii) (s : string) : string :=
  match s with
  | EmptyString => EmptyString
  | String c s' =>
      String (if Ascii.eqb c old then new else c) (replace old new s')
  end.

(** Python's [a != b] on [str]. *)
Definition ne (a b : string) : bool := negb (String.eqb a b).

(** Python's [x in choices] for a list of strings. *)
Definition mem (x : string) (l : list string) : bool :=
  existsb (String.eqb x) l.

End PyStr.

(** ** Invocation parameters and the argument spec *)

(** What the invoker supplies: each parameter may be absent; the check-mode
    flag comes with the invocation, not with the parameters. *)
Record Invocation := {
  arg_host : option string;
  arg_login : option string;
  arg_password : option string;
  arg_ssl_version : option string;
  arg_device : option string;
  check_mode : bool
}.

(** [module.params] once [AnsibleModule] accepted the invocation. *)
Record Params := {
  host : string;
  login : string;
  password : string;
  ssl_version : string;
  device : string
}.

(** One entry of [module_args]: [dict(type='str', required=..., default=...,
    choices=...)]. *)
Record ArgSpec := {
  required : bool;
  default : option string;
  choices : option (list string)
}.

Definition ssl_version_choices : list string :=
  ["SSLv3"; "SSLv23"; "TLSv1"; "TLSv1_1"; "TLSv1_2"].

Definition device_choices : list string := ["network"; "normal"].

Module module_args.
Definition host := {| required := true; default := None; choices := None |}.
Definition login :=
  {| required := false; default := Some "Administrator"; choices := None |}.
Definition password :=
  {| required := false; default := Some "admin"; choices := None |}.
Definition ssl_version :=
  {| required := false; default := Some "TLSv1";
     choices := Some ssl_version_choices |}.
Definition device :=
  {| required := false; default := Some "network";
     choices := Some device_choices |}.
End module_args.

(** Why [AnsibleModule] refused an invocation. *)
Inductive ArgError :=
| MissingRequired (name : string)
| NotInChoices (name value : string).

(** Modelled from the spec: the constructor [AnsibleModule] belongs to
    [ansible.module_utils.basic], which is not under the repository's
    sources.  Checking one parameter against its entry of [module_args]:
    an absent parameter takes the default, or is an error when it is
    required; a value outside the declared choices is an error.  (An
    optional parameter without default would be [None] in Python; every
    optional entry of [module_args] has a default, so that case, rendered
    here as the empty string, is never reached.) *)
Definition check_arg (name : string) (spec : ArgSpec) (given : option string)
  : string + ArgError :=
  match (match given with Some v => Some v | None => default spec end) with
  | None => if required spec then inr (MissingRequired name) else inl ""
  | Some v =>
      match choices spec with
      | Some cs => if PyStr.mem v cs then inl v else inr (NotInChoices name v)
      | None => inl v
      end
  end.

(** Modelled from the spec: [AnsibleModule(argument_spec=module_args,
    supports_check_mode=True)] validates every parameter when the object is
    built and, on an invalid one, fails the module right there. *)
Definition AnsibleModule (inv : Invocation) : Params + ArgError :=
  match check_arg "host" module_args.host (arg_host inv) with
  | inr e => inr e
  | inl h =>
  match check_arg "login" module_args.login (arg_login inv) with
  | inr e => inr e
  | inl l =>
  match check_arg "password" module_args.password (arg_password inv) with
  | inr e => inr e
  | inl p =>
  match check_arg "ssl_version" module_args.ssl_version (arg_ssl_version inv) with
  | inr e => inr e
  | inl s =>
  match check_arg "device" module_args.device (arg_device inv) with
  | inr e => inr e
  | inl d =>
      inl {| host := h; login := l; password := p;
             ssl_version := s; device := d |}
  end end end end end.

(** ** The protocol constant's name *)

(** ['PROTOCOL_' + module.params.get('ssl_version').upper().replace('V', 'v')] *)
Definition protocol_name (ssl_version : string) : string :=
  "PROTOCOL_" ++ PyStr.replace "V"%char "v"%char (PyStr.upper ssl_version).

(** The explicit table the specification asks for, written from its words:
    each named protocol version with the identifier of its constant. *)
Definition protocol_table (ssl_version : string) : option string :=
  if String.eqb ssl_version "SSLv3" then Some "PROTOCOL_SSLv3"
  else if String.eqb ssl_version "SSLv23" then Some "PROTOCOL_SSLv23"
  else if String.eqb ssl_version "TLSv1" then Some "PROTOCOL_TLSv1"
  else if String.eqb ssl_version "TLSv1_1" then Some "PROTOCOL_TLSv1_1"
  else if String.eqb ssl_version "TLSv1_2" then Some "PROTOCOL_TLSv1_2"
  else None.

(** ** Exceptions, results and the trace of client calls *)

(** The exceptions a client call can raise, by what the handlers of
    [run_module] tell apart: [hpilo.IloError] (and its subclasses) and any
    other [Exception].  The string is [str(e)]. *)
Inductive exn :=
| IloError (msg : string)
| OtherException (msg : string).

Definition str (e : exn) : string :=
  match e with IloError m => m | OtherException m => m end.

(** The [result] dict. *)
Record Result := {
  changed : bool;
  power_status : string;
  one_time_boot_status : string
}.

(** [result['changed'] = v] and its two siblings. *)
Definition set_changed (v : bool) (r : Result) : Result :=
  {| changed := v; power_status := power_status r;
     one_time_boot_status := one_time_boot_status r |}.

Definition set_power_status (v : string) (r : Result) : Result :=
  {| changed := changed r; power_status := v;
     one_time_boot_status := one_time_boot_status r |}.

Definition set_one_time_boot_status (v : string) (r : Result) : Result :=
  {| changed := changed r; power_status := power_status r;
     one_time_boot_status := v |}.

(** How one run of the module ends. *)
Inductive Outcome :=
| exit_json (r : Result)
    (** [module.exit_json( **result )] *)
| fail_json (msg : string) (r : Result)
    (** [module.fail_json(msg=str(e), **result)] of the exception handler *)
| fail_json_missing_lib (lib : string)
    (** [module.fail_json(msg=missing_required_lib(lib), exception=...)] *)
| fail_json_args (e : ArgError)
    (** [AnsibleModule(...)] refused the parameters *)
| uncaught_AttributeError (name : string).
    (** [getattr(hpilo.ssl, name)] raised outside the [try] *)

(** The result fields an outcome reports, when it reports them. *)
Definition reported (o : Outcome) : option Result :=
  match o with
  | exit_json r | fail_json _ r => Some r
  | _ => None
  end.

(** Every call the module makes on the client (and the one [time.sleep]),
    in order, with what it returned or raised. *)
Inductive Event :=
| EvIlo (host login password : string) (ssl_version : Z) (raised : option exn)
| EvGetHostPowerStatus (r : string + exn)
| EvGetOneTimeBoot (r : string + exn)
| EvSetOneTimeBoot (device : string) (raised : option exn)
| EvSleep (secs : Z)
| EvPressPwrBtn (raised : option exn).

Definition Trace := list Event.

Definition is_set (e : Event) : bool :=
  match e with EvSetOneTimeBoot _ _ => true | _ => false end.

Definition is_set_ok (e : Event) : bool :=
  match e with EvSetOneTimeBoot _ None => true | _ => false end.

Definition is_press (e : Event) : bool :=
  match e with EvPressPwrBtn _ => true | _ => false end.

Definition is_sleep (e : Event) : bool :=
  match e with EvSleep _ => true | _ => false end.


Definition is_boot_query (e : Event) : bool :=
  match e with EvGetOneTimeBoot _ => true | _ => false end.

Definition count (p : Event -> bool) (t : Trace) : nat :=
  List.length (filter p t).

Definition raised_of {A} (r : A + exn) : option exn :=
  match r with inl _ => None | inr e => Some e end.

(** The exception an event ended with, if it did. *)
Definition raised (e : Event) : option exn :=
  match e with
  | EvIlo _ _ _ _ r | EvSetOneTimeBoot _ r | EvPressPwrBtn r => r
  | EvGetHostPowerStatus r | EvGetOneTimeBoot r => raised_of r
  | EvSleep _ => None
  end.

Fixpoint last_event (t : Trace) : option Event :=
  match t with
  | [] => None
  | [e] => Some e
  | _ :: t' => last_event t'
  end.

(** The exception the last call of a trace raised, if it raised. *)
Definition last_raised (t : Trace) : option exn :=
  match last_event t with Some e => raised e | None => None end.

(** ** The hpilo client, as an interface *)

(** [W] is the state of everything outside the module (the controller, the
    network); a call returns a value or raises, and leaves a new state. *)
Record Hpilo (W Session : Type) := {
  ssl_getattr : string -> option Z;
    (** [getattr(hpilo.ssl, name)]; [None] is [AttributeError] *)
  Ilo : string -> string -> string -> Z -> W -> (Session + exn) * W;
  get_host_power_status : Session -> W -> (string + exn) * W;
  get_one_time_boot : Session -> W -> (string + exn) * W;
  set_one_time_boot : Session -> string -> W -> (unit + exn) * W;
  press_pwr_btn : Session -> W -> (unit + exn) * W;
  sleep : Z -> W -> W
    (** [time.sleep]: time passes outside *)
}.

(** ** A state and exception monad for the body of [run_module] *)

(** The state threaded through the [try] block: the outside world, the
    trace of calls made so far, and the [result] dict, which the exception
    handler reads as it is when the exception arrives. *)
Record St (W : Type) := {
  st_world : W;
  st_trace : Trace;
  st_result : Result
}.

Definition M (W A : Type) : Type := St W -> (A + exn) * St W.

Definition ret {W A} (a : A) : M W A := fun s => (inl a, s).

Definition bind {W A B} (m : M W A) (k : A -> M W B) : M W B :=
  fun s =>
    match m s with
    | (inl a, s') => k a s'
    | (inr e, s') => (inr e, s')
    end.

Declare Scope py_scope.
Delimit Scope py_scope with py.
Notation "x <- m ;; k" := (bind m (fun x => k))
  (at level 100, m at next level, right associativity) : py_scope.
Notation "' p <- m ;; k" := (bind m (fun x => match x with p => k end))
  (at level 100, p pattern, m at next level, right associativity) : py_scope.
Notation "m ;; k" := (bind m (fun _ => k))
  (at level 100, right associativity) : py_scope.

(** [try: body  except hpilo.IloError: handler]: only an [IloError] raised
    by [body] enters the handler; what the handler raises propagates. *)
Definition try_except_IloError {W A} (body handler : M W A) : M W A :=
  fun s =>
    match body s with
    | (inr (IloError _), s') => handler s'
    | r => r
    end.

(** [result[...] = v] *)
Definition result_update {W} (f : Result -> Result) : M W unit :=
  fun s =>
    (inl tt, {| st_world := st_world s; st_trace := st_trace s;
                st_result := f (st_result s) |}).

Definition result_get {W} : M W Result := fun s => (inl (st_result s), s).

(** A call on the client: run it on the world and append its event. *)
Definition call {W A} (f : W -> (A + exn) * W) (ev : A + exn -> Event)
  : M W A :=
  fun s =>
    let (r, w') := f (st_world s) in
    (r, {| st_world := w'; st_trace := (st_trace s ++ [ev r])%list;
           st_result := st_result s |}).

(** ** run_module *)

(** What a run leaves behind: how it ended, the outside world after it and
    the calls it made. *)
Record Run (W : Type) := {
  outcome : Outcome;
  world : W;
  calls : Trace
}.

Section RunModule.

Context {W Session : Type} (hpilo : Hpilo W Session).

Local Open Scope py_scope.

(** The calls of the module, each leaving its event in the trace. *)
Definition hpilo_Ilo (host login password : string) (ssl_version : Z)
  : M W Session :=
  call (Ilo hpilo host login password ssl_version)
       (fun r => EvIlo host login password ssl_version (raised_of r)).

Definition ilo_get_host_power_status (ilo : Session) : M W string :=
  call (get_host_power_status hpilo ilo) EvGetHostPowerStatus.

Definition ilo_get_one_time_boot (ilo : Session) : M W string :=
  call (get_one_time_boot hpilo ilo) EvGetOneTimeBoot.

Definition ilo_set_one_time_boot (ilo : Session) (device : string)
  : M W unit :=
  call (set_one_time_boot hpilo ilo device)
       (fun r => EvSetOneTimeBoot device (raised_of r)).

Definition ilo_press_pwr_btn (ilo : Session) : M W unit :=
  call (press_pwr_btn hpilo ilo) (fun r => EvPressPwrBtn (raised_of r)).

Definition time_sleep (secs : Z) : M W unit :=
  call (fun w => (inl tt, sleep hpilo secs w)) (fun _ => EvSleep secs).

(** The body of the [try] block, from [hpilo.Ilo(...)] to
    [module.exit_json]; [changed] comes in as the [False] it was set to
    before the block. *)
Definition ilo_operation (host login password : string) (ssl_version : Z)
    (device : string) (check_mode : bool) (changed : bool) : M W Outcome :=
  (* ilo interface *)
  ilo <- hpilo_Ilo host login password ssl_version ;;
  (* get power status *)
  power_status <- ilo_get_host_power_status ilo ;;
  (* get one time boot status *)
  one_time_boot_status <- ilo_get_one_time_boot ilo ;;
  (* operate if not check mode *)
  '(changed, power_status, one_time_boot_status) <-
    (if negb check_mode then
       changed <-
         (if PyStr.ne device one_time_boot_status then
            (* try boot once *)
            try_except_IloError
              (ilo_set_one_time_boot ilo device ;;
               ret true)
              (time_sleep 60 ;;
               ilo_set_one_time_boot ilo device ;;
               ret true)
          else ret changed) ;;
       if changed : bool then
         (* set one time boot status *)
         let one_time_boot_status := device in
         if String.eqb power_status "OFF" then
           (* boot *)
           ilo_press_pwr_btn ilo ;;
           (* set power status *)
           ret (changed, "BOOTING", one_time_boot_status)
         else ret (changed, power_status, one_time_boot_status)
       else ret (changed, power_status, one_time_boot_status)
     else ret (changed, power_status, one_time_boot_status)) ;;
  result_update (set_changed changed) ;;
  result_update (set_power_status power_status) ;;
  result_update (set_one_time_boot_status one_time_boot_status) ;;
  (* return *)
  result <- result_get ;;
  ret (exit_json result).

Definition run_module (HAS_HPILO : bool) (inv : Invocation) (w : W)
  : Run W :=
  (* seed the result dict in the object *)
  let result := {| changed := false;
                   power_status := "UNKNOWN";
                   one_time_boot_status := "UNKNOWN" |} in
  (* AnsibleModule object *)
  match AnsibleModule inv with
  | inr e => {| outcome := fail_json_args e; world := w; calls := [] |}
  | inl params =>
      (* missing python requirement *)
      if negb HAS_HPILO then
        {| outcome := fail_json_missing_lib "python-hpilo";
           world := w; calls := [] |}
      else
        (* vars *)
        let host := host params in
        let login := login params in
        let password := password params in
        let name := protocol_name (ssl_version params) in
        match ssl_getattr hpilo name with
        | None =>
            {| outcome := uncaught_AttributeError name;
               world := w; calls := [] |}
        | Some ssl_version =>
            let device := device params in
            let changed := false in
            (* ilo operation *)
            match
              ilo_operation host login password ssl_version device
                (check_mode inv) changed
                {| st_world := w; st_trace := []; st_result := result |}
            with
            | (inl o, s) =>
                {| outcome := o; world := st_world s; calls := st_trace s |}
            | (inr e, s) =>
                (* except Exception as e *)
                {| outcome := fail_json (str e) (st_result s);
                   world := st_world s; calls := st_trace s |}
            end
        end
  end.

End RunModule.

(** ** A simulated controller *)

(** An executable client: a controller holding a power state and a one-time
    boot mode, and a script saying, call after call, whether the call goes
    through ([None]) or raises.  A call that raises leaves the controller
    as it was; nobody but the module acts on it. *)
Module Sim.

Record World := {
  power : string;
  boot : string;
  faults : list (option exn)
}.

Definition with_faults (fs : list (option exn)) (w : World) : World :=
  {| power := power w; boot := boot w; faults := fs |}.

(** One scripted call: consume the head of the script. *)
Definition scripted {A} (ok : World -> A * World) (w : World)
  : (A + exn) * World :=
  match faults w with
  | Some e :: fs => (inr e, with_faults fs w)
  | None :: fs => let (a, w') := ok (with_faults fs w) in (inl a, w')
  | [] => let (a, w') := ok w in (inl a, w')
  end.

(** The constants of Python's [ssl] module. *)
Definition ssl_constants (name : string) : option Z :=
  if String.eqb name "PROTOCOL_SSLv23" then Some 2%Z
  else if String.eqb name "PROTOCOL_SSLv3" then Some 1%Z
  else if String.eqb name "PROTOCOL_TLSv1" then Some 3%Z
  else if String.eqb name "PROTOCOL_TLSv1_1" then Some 4%Z
  else if String.eqb name "PROTOCOL_TLSv1_2" then Some 5%Z
  else None.

(** A successful [set_one_time_boot] records the mode; a successful
    [press_pwr_btn] starts a host that is off (and stops one that runs). *)
Definition do_set (d : string) (w : World) : unit * World :=
  (tt, {| power := power w; boot := d; faults := faults w |}).

Definition do_press (w : World) : unit * World :=
  (tt, {| power := if String.eqb (power w) "OFF" then "ON" else "OFF";
          boot := boot w; faults := faults w |}).

Definition client : Hpilo World unit := {|
  ssl_getattr := ssl_constants;
  Ilo := fun _ _ _ _ => scripted (fun w => (tt, w));
  get_host_power_status := fun _ => scripted (fun w => (power w, w));
  get_one_time_boot := fun _ => scripted (fun w => (boot w, w));
  set_one_time_boot := fun _ d => scripted (do_set d);
  press_pwr_btn := fun _ => scripted do_press;
  sleep := fun _ w => w
|}.

(** An invocation giving only the address, as in the module's example. *)
Definition invoke (device : string) (check : bool) : Invocation :=
  {| arg_host := Some "ilo.example.org"; arg_login := None;
     arg_password := None; arg_ssl_version := None;
     arg_device := Some device; check_mode := check |}.

Definition run (inv : Invocation) (w : World) : Run World :=
  run_module client true inv w.

End Sim.

(** ** Controllers nobody else acts on *)

(** What "no external actor changes the device state" asks of a client, as
    far as the one-time boot mode goes: the world has a current mode, a
    successful boot query reads it, a successful set writes it, and the
    connection, the two queries and the power button leave it alone. *)
Record Retains {W Session : Type} (hpilo : Hpilo W Session)
    (mode : W -> string) : Prop := {
  retains_Ilo : forall h l p v w r w',
      Ilo hpilo h l p v w = (r, w') -> mode w' = mode w;
  retains_power : forall ilo w r w',
      get_host_power_status hpilo ilo w = (r, w') -> mode w' = mode w;
  retains_boot : forall ilo w r w',
      get_one_time_boot hpilo ilo w = (r, w') -> mode w' = mode w;
  reads_boot : forall ilo w b w',
      get_one_time_boot hpilo ilo w = (inl b, w') -> b = mode w;
  writes_boot : forall ilo d w u w',
      set_one_time_boot hpilo ilo d w = (inl u, w') -> mode w' = d;
  retains_press : forall ilo w r w',
      press_pwr_btn hpilo ilo w = (r, w') -> mode w' = mode w
}.

(** ** Inputs of the scenarios *)

Definition default_result : Result :=
  {| changed := false; power_status := "UNKNOWN";
     one_time_boot_status := "UNKNOWN" |}.

Module Scenario.

Definition device_at (p b : string) (fs : list (option exn)) : Sim.World :=
  {| Sim.power := p; Sim.boot := b; Sim.faults := fs |}.

(** Connection and both queries go through, the first set raises
    [IloError]. *)
Definition busy_once : Sim.World :=
  device_at "OFF" "normal" [None; None; None; Some (IloError "busy")].

(** As [busy_once], and the power button then fails. *)
Definition busy_once_no_power : Sim.World :=
  device_at "OFF" "normal"
    [None; None; None; Some (IloError "busy"); None;
     Some (OtherException "power button")].

(** The set goes through, the power button fails. *)
Definition no_power : Sim.World :=
  device_at "OFF" "normal"
    [None; None; None; None; Some (OtherException "power button")].

(** The power query answers, the boot query raises. *)
Definition boot_query_fails : Sim.World :=
  device_at "ON" "normal" [None; None; Some (OtherException "timed out")].

(** What [AnsibleModule] makes of [Sim.invoke "network" _]. *)
Definition network_params : Params :=
  {| host := "ilo.example.org"; login := "Administrator";
     password := "admin"; ssl_version := "TLSv1"; device := "network" |}.

(** No host given. *)
Definition no_host : Invocation :=
  {| arg_host := None; arg_login := None; arg_password := None;
     arg_ssl_version := None; arg_device := None; check_mode := false |}.

End Scenario.

(** ** More on traces and parameters *)

Definition is_connect (e : Event) : bool :=
  match e with EvIlo _ _ _ _ _ => true | _ => false end.

(** The calls that come after the two queries. *)
Definition is_action (e : Event) : bool :=
  is_set e || is_sleep e || is_press e.

(** Every way of cutting a trace in two after one of its events: the event
    and what follows it. *)
Fixpoint cuts (t : Trace) : list (Event * Trace) :=
  match t with
  | [] => []
  | e :: t' => (e, t') :: cuts t'
  end.

(** [module.params] for a parameter with a default: the value given, or the
    default. *)
Definition with_default (given : option string) (d : string) : string :=
  match given with Some v => v | None => d end.

(** The simulated client under a Python whose [ssl] module was built
    without SSLv3: [PROTOCOL_SSLv3] is not an attribute. *)
Definition no_sslv3_client : Hpilo Sim.World unit := {|
  ssl_getattr := fun name =>
    if String.eqb name "PROTOCOL_SSLv3" then None
    else Sim.ssl_constants name;
  Ilo := Ilo Sim.client;
  get_host_power_status := get_host_power_status Sim.client;
  get_one_time_boot := get_one_time_boot Sim.client;
  set_one_time_boot := set_one_time_boot Sim.client;
  press_pwr_btn := press_pwr_btn Sim.client;
  sleep := sleep Sim.client
|}.

(** An invocation asking for SSLv3. *)
Definition sslv3_invocation : Invocation :=
  {| arg_host := Some "ilo.example.org"; arg_login := Some "root";
     arg_password := None; arg_ssl_version := Some "SSLv3";
     arg_device := None; check_mode := false |}.

Definition sslv3_params : Params :=
  {| host := "ilo.example.org"; login := "root"; password := "admin";
     ssl_version := "SSLv3"; device := "network" |}.

(** ** Case analysis on a run *)

(** Unfold one run down to the client calls and split on each of them, in
    the order the module makes them. *)
Ltac unfold_run :=
  unfold run_module, ilo_operation, hpilo_Ilo, ilo_get_host_power_status,
    ilo_get_one_time_boot, ilo_set_one_time_boot, ilo_press_pwr_btn,
    time_sleep, bind, call, try_except_IloError, ret, result_update,
    result_get, PyStr.ne; simpl.

Ltac split_call :=
  match goal with
  | |- context [match AnsibleModule ?i with _ => _ end] =>
      destruct (AnsibleModule i) as [?params|?err] eqn:?
  | |- context [match ssl_getattr ?h ?n with _ => _ end] =>
      destruct (ssl_getattr h n) as [?v|] eqn:?
  | |- context [Ilo ?h ?a ?b ?c ?d ?x] =>
      destruct (Ilo h a b c d x) as [[?ilo|[?m|?m]] ?w] eqn:?
  | |- context [get_host_power_status ?h ?i ?x] =>
      destruct (get_host_power_status h i x) as [[?p|[?m|?m]] ?w] eqn:?
  | |- context [get_one_time_boot ?h ?i ?x] =>
      destruct (get_one_time_boot h i x) as [[?b|[?m|?m]] ?w] eqn:?
  | |- context [set_one_time_boot ?h ?i ?d ?x] =>
      destruct (set_one_time_boot h i d x) as [[[]|[?m|?m]] ?w] eqn:?
  | |- context [press_pwr_btn ?h ?i ?x] =>
      destruct (press_pwr_btn h i x) as [[[]|[?m|?m]] ?w] eqn:?
  | |- context [if negb ?c then _ else _] => destruct c eqn:?
  | |- context [if String.eqb ?a ?b then _ else _] =>
      destruct (String.eqb a b) eqn:?
  end.

Ltac run_cases := unfold_run; repeat (split_call; simpl).

(** Carry the current mode along the calls of a run, for a client that
    retains it. *)
Ltac carry_mode R :=
  repeat match goal with
  | H : Ilo _ _ _ _ _ _ = _ |- _ =>
      apply (retains_Ilo R) in H
  | H : get_host_power_status _ _ _ = _ |- _ =>
      apply (retains_power R) in H
  | H : get_one_time_boot _ _ _ = (inl _, _) |- _ =>
      pose proof (@reads_boot _ _ _ _ R _ _ _ _ H);
      apply (retains_boot R) in H
  | H : get_one_time_boot _ _ _ = _ |- _ =>
      apply (retains_boot R) in H
  | H : set_one_time_boot _ _ _ _ = (inl _, _) |- _ =>
      apply (writes_boot R) in H
  | H : press_pwr_btn _ _ _ = _ |- _ =>
      apply (retains_press R) in H
  end.

(** Turn the boolean string tests left by the case analysis into
    equations and disequations. *)
Ltac str_facts :=
  repeat match goal with
  | H : String.eqb _ _ = true |- _ => apply String.eqb_eq in H
  | H : String.eqb _ _ = false |- _ => apply String.eqb_neq in H
  | H : negb _ = true |- _ => apply negb_true_iff in H
  | H : negb _ = false |- _ => apply negb_false_iff in H
  end.

Ltac ev_inv :=
  repeat match goal with
  | H : _ \/ _ |- _ => destruct H
  | H : _ /\ _ |- _ => destruct H
  | H : False |- _ => destruct H
  | H : Some _ = Some _ |- _ => injection H as H
  | H : inl _ = inl _ |- _ => injection H as H
  | H : exit_json _ = exit_json _ |- _ => injection H as H
  | H : fail_json _ _ = fail_json _ _ |- _ => injection H as ? H
  | H : @eq Event _ _ |- _ => inversion H; clear H
  | H : ?a = ?b |- _ => first [discriminate H | subst a | subst b]
  end.

(** Take apart the equations between pairs that a cut of a trace leaves. *)
Ltac cut_inv :=
  repeat match goal with
  | H : In _ (cuts _) |- _ => simpl in H
  | H : _ \/ _ |- _ => destruct H
  | H : False |- _ => destruct H
  | H : (_, _) = (_, _) |- _ => injection H as ? ?
  end; subst.

(** * Properties *)

Unset Implicit Arguments.

(** ** The protocol name *)

(** C10.  For each of the five values [ssl_version] may take, the name built
    by upper-casing the value, turning every 'V' into 'v' and prefixing
    'PROTOCOL_' is the one the explicit table gives: SSLv3, SSLv23, TLSv1,
    TLSv1_1 and TLSv1_2 go to PROTOCOL_SSLv3, PROTOCOL_SSLv23,
    PROTOCOL_TLSv1, PROTOCOL_TLSv1_1 and PROTOCOL_TLSv1_2. *)
Theorem protocol_name_is_table (s : string) :
  In s ssl_version_choices -> protocol_table s = Some (protocol_name s).
Proof.
  unfold ssl_version_choices; simpl.
  intros [<-|[<-|[<-|[<-|[<-|[]]]]]]; reflexivity.
Qed.

Lemma protocol_name_is_table_witness :
  In "TLSv1_2" ssl_version_choices /\
  protocol_table "TLSv1_2" = Some (protocol_name "TLSv1_2").
Proof.
  split.
  - simpl; tauto.
  - apply (protocol_name_is_table "TLSv1_2"); simpl; tauto.
Defined.

(** The five names, value by value. *)
Example protocol_names :
  map protocol_name ssl_version_choices =
  ["PROTOCOL_SSLv3"; "PROTOCOL_SSLv23"; "PROTOCOL_TLSv1";
   "PROTOCOL_TLSv1_1"; "PROTOCOL_TLSv1_2"].
Proof. reflexivity. Qed.

(** ** Accepted invocations *)

Lemma mem_In (x : string) (l : list string) :
  PyStr.mem x l = true -> In x l.
Proof.
  unfold PyStr.mem. rewrite existsb_exists.
  intros [y [Hy E]]. apply String.eqb_eq in E. now subst.
Qed.

(** Every accepted invocation carries an [ssl_version] and a [device] among
    the declared choices. *)
Lemma AnsibleModule_choices (inv : Invocation) (params : Params) :
  AnsibleModule inv = inl params ->
  In (ssl_version params) ssl_version_choices /\
  In (device params) device_choices.
Proof.
  unfold AnsibleModule.
  repeat match goal with
  | |- context [match check_arg ?n ?s ?g with _ => _ end] =>
      destruct (check_arg n s g) eqn:?; [|discriminate]
  end.
  intros H; injection H as <-.
  unfold check_arg, module_args.ssl_version, module_args.device in *.
  cbn [default choices required ssl_version device] in *.
  split.
  - destruct (arg_ssl_version inv) as [v|];
    match goal with
    | H : (if PyStr.mem ?x ?l then _ else _) = inl _ |- _ =>
        destruct (PyStr.mem x l) eqn:E; [injection H as <-|discriminate]
    end; now apply mem_In in E.
  - destruct (arg_device inv) as [v|];
    match goal with
    | H : (if PyStr.mem ?x ?l then _ else _) = inl ?d |- In ?d _ =>
        destruct (PyStr.mem x l) eqn:E; [injection H as <-|discriminate]
    end; now apply mem_In in E.
Qed.

(** The simulated [ssl] module has the constant of every allowed version. *)
Lemma Sim_ssl_defined (s : string) :
  In s ssl_version_choices ->
  exists v, Sim.ssl_constants (protocol_name s) = Some v.
Proof.
  unfold ssl_version_choices; simpl.
  intros [<-|[<-|[<-|[<-|[<-|[]]]]]]; eexists; reflexivity.
Qed.

(** ** Scenarios of the specification, run on the simulated controller *)

(** A: boot mode normal, power OFF, network wanted. *)
Example scenario_A :
  outcome (Sim.run (Sim.invoke "network" false)
             (Scenario.device_at "OFF" "normal" []))
  = exit_json {| changed := true; power_status := "BOOTING";
                 one_time_boot_status := "network" |}.
Proof. reflexivity. Qed.

(** B: already in network mode, power ON. *)
Example scenario_B :
  outcome (Sim.run (Sim.invoke "network" false)
             (Scenario.device_at "ON" "network" []))
  = exit_json {| changed := false; power_status := "ON";
                 one_time_boot_status := "network" |}.
Proof. reflexivity. Qed.

(** C: check mode, boot mode normal, power ON. *)
Example scenario_C :
  outcome (Sim.run (Sim.invoke "network" true)
             (Scenario.device_at "ON" "normal" []))
  = exit_json {| changed := false; power_status := "ON";
                 one_time_boot_status := "normal" |}.
Proof. reflexivity. Qed.

(** D: the first set raises [IloError], the second goes through. *)
Example scenario_D :
  let r := Sim.run (Sim.invoke "network" false) Scenario.busy_once in
  outcome r = exit_json {| changed := true; power_status := "BOOTING";
                           one_time_boot_status := "network" |} /\
  count is_set (calls r) = 2 /\ count is_sleep (calls r) = 1.
Proof. repeat split. Qed.

(** E: python-hpilo is missing. *)
Example scenario_E :
  outcome (run_module Sim.client false (Sim.invoke "network" false)
             (Scenario.device_at "OFF" "normal" []))
  = fail_json_missing_lib "python-hpilo".
Proof. reflexivity. Qed.

(** ** Laws of one run, for any client *)

Section Laws.

Context {W Session : Type} (hpilo : Hpilo W Session).
Variables (HAS_HPILO : bool) (inv : Invocation) (w : W).

Let r := run_module hpilo HAS_HPILO inv w.

(** C2.  In check mode, for every invocation and every state of the
    controller: no set-one-time-boot and no power-on call is made, every
    reported result has changed=false, and once both queries have answered
    the module exits with exactly the two observed values, whether or not
    the wanted mode differs from the observed one. *)
Theorem check_mode_only_observes :
  check_mode inv = true ->
  count is_set (calls r) = 0 /\
  count is_press (calls r) = 0 /\
  (forall res, reported (outcome r) = Some res -> changed res = false) /\
  (forall p b,
      In (EvGetHostPowerStatus (inl p)) (calls r) ->
      In (EvGetOneTimeBoot (inl b)) (calls r) ->
      outcome r = exit_json {| changed := false; power_status := p;
                               one_time_boot_status := b |}).
Proof.
  intros Hc. subst r. run_cases.
  all: try congruence.
  all: repeat split; simpl; intros; ev_inv; reflexivity.
Qed.

(** C9.  Whenever the run ends in the exception handler, the reported
    fields are the defaults the result dict was seeded with (changed=false,
    both statuses UNKNOWN) and the message is that of the exception the last
    call raised; and the handler is reached whenever the last call made
    raised, be it the connection, a query, a set attempt or the power
    button. *)
Theorem handler_reports_defaults :
  (forall msg res,
      outcome r = fail_json msg res ->
      res = default_result /\
      exists e, last_raised (calls r) = Some e /\ msg = str e) /\
  (forall e,
      last_raised (calls r) = Some e ->
      outcome r = fail_json (str e) default_result).
Proof.
  subst r. unfold last_raised. run_cases.
  all: split; simpl; intros; ev_inv; try discriminate.
  all: try reflexivity.
  all: try (split; [reflexivity|eexists; split; reflexivity]).
Qed.


(** C8.  When the boot query answered a mode other than the wanted one and
    a set-one-time-boot call succeeded (the first or the second), every
    successful result has changed=true and one_time_boot_status equal to the
    wanted mode; the boot mode is queried only once, before the set; and
    the module does exit successfully unless its last call raised. *)
Theorem mutation_reports_desired_mode (params : Params) (b : string) :
  AnsibleModule inv = inl params ->
  In (EvGetOneTimeBoot (inl b)) (calls r) ->
  device params <> b ->
  0 < count is_set_ok (calls r) ->
  count is_boot_query (calls r) = 1 /\
  (forall res, outcome r = exit_json res ->
               changed res = true /\
               one_time_boot_status res = device params) /\
  (last_raised (calls r) = None ->
   exists p, outcome r = exit_json {| changed := true; power_status := p;
                                      one_time_boot_status := device params |}).
Proof.
  subst r. unfold last_raised. intros Hp. run_cases.
  all: str_facts; unfold count; simpl; intros.
  all: ev_inv; try lia; try congruence.
  all: repeat split; intros; ev_inv; try congruence; auto.
  all: try (eexists; reflexivity).
Qed.

(** When the controller already reports the wanted mode, nothing is
    changed. *)
Lemma already_in_mode (params : Params) :
  AnsibleModule inv = inl params ->
  check_mode inv = false ->
  In (EvGetOneTimeBoot (inl (device params))) (calls r) ->
  count is_set (calls r) = 0 /\
  count is_press (calls r) = 0 /\
  exists p,
    In (EvGetHostPowerStatus (inl p)) (calls r) /\
    outcome r = exit_json {| changed := false; power_status := p;
                             one_time_boot_status := device params |}.
Proof.
  subst r. intros Hp. run_cases.
  all: str_facts; unfold count; simpl; intros.
  all: ev_inv; try lia; try congruence.
  all: repeat split; eexists; split; [|reflexivity]; simpl; auto.
Qed.

(** C5, amended.  If the power-on call fails, which happens only after a
    set-one-time-boot call succeeded, the module fails with the message of
    that exception and reports the defaults of the result dict (changed=false
    and both statuses UNKNOWN); the failing press is the last call made, so
    the mode already set on the controller is not rolled back. *)
Theorem power_on_failure_reports_defaults (e : exn) :
  In (EvPressPwrBtn (Some e)) (calls r) ->
  outcome r = fail_json (str e) default_result /\
  last_event (calls r) = Some (EvPressPwrBtn (Some e)) /\
  count is_set_ok (calls r) = 1.
Proof.
  subst r. run_cases.
  all: unfold count; simpl; intros.
  all: ev_inv; repeat split.
Qed.

(** C6, amended.  If the power query answers and the boot query then
    raises, the module fails with the message of that exception and reports
    the defaults of the result dict: power_status is UNKNOWN, not the value
    the power query returned.  Nothing was changed on the controller. *)
Theorem boot_query_failure_reports_defaults (p : string) (e : exn) :
  In (EvGetHostPowerStatus (inl p)) (calls r) ->
  In (EvGetOneTimeBoot (inr e)) (calls r) ->
  outcome r = fail_json (str e) default_result /\
  calls r <> [] /\ count is_set (calls r) = 0 /\ count is_press (calls r) = 0.
Proof.
  subst r. run_cases.
  all: unfold count; simpl; intros.
  all: ev_inv; repeat split; discriminate.
Qed.

(** C3, amended.  Let the first set-one-time-boot call raise.  If it raised
    anything but [IloError], the module fails at once with changed=false: no
    sleep, no second call.  If it raised [IloError], the module sleeps 60
    and calls set-one-time-boot once more, in the state the sleep left; if
    that call raises, the module fails with its message and changed=false;
    if it succeeds, the module exits with changed=true and the wanted mode,
    pressing the power button first when the power query had answered OFF,
    in which case a failing press makes the module fail instead.  In every
    case at most two set calls are made. *)
Theorem retry_once_after_cooldown
    (params : Params) (v : Z) (ilo : Session) (w1 w2 w3 w4 : W)
    (p b : string) (e1 : exn) :
  HAS_HPILO = true ->
  AnsibleModule inv = inl params ->
  check_mode inv = false ->
  ssl_getattr hpilo (protocol_name (ssl_version params)) = Some v ->
  Ilo hpilo (host params) (login params) (password params) v w
    = (inl ilo, w1) ->
  get_host_power_status hpilo ilo w1 = (inl p, w2) ->
  get_one_time_boot hpilo ilo w2 = (inl b, w3) ->
  device params <> b ->
  set_one_time_boot hpilo ilo (device params) w3 = (inr e1, w4) ->
  let d := device params in
  let first :=
    [EvIlo (host params) (login params) (password params) v None;
     EvGetHostPowerStatus (inl p); EvGetOneTimeBoot (inl b);
     EvSetOneTimeBoot d (Some e1)] in
  count is_set (calls r) <= 2 /\
  match e1 with
  | OtherException m =>
      r = {| outcome := fail_json m default_result;
             world := w4; calls := first |}
  | IloError _ =>
      match set_one_time_boot hpilo ilo d (sleep hpilo 60 w4) with
      | (inr e2, w5) =>
          r = {| outcome := fail_json (str e2) default_result;
                 world := w5;
                 calls := (first ++ [EvSleep 60;
                                     EvSetOneTimeBoot d (Some e2)])%list |}
      | (inl _, w5) =>
          let retried :=
            (first ++ [EvSleep 60; EvSetOneTimeBoot d None])%list in
          if String.eqb p "OFF" then
            match press_pwr_btn hpilo ilo w5 with
            | (inl _, w6) =>
                r = {| outcome :=
                         exit_json {| changed := true;
                                      power_status := "BOOTING";
                                      one_time_boot_status := d |};
                       world := w6;
                       calls := (retried ++ [EvPressPwrBtn None])%list |}
            | (inr e3, w6) =>
                r = {| outcome := fail_json (str e3) default_result;
                       world := w6;
                       calls := (retried ++ [EvPressPwrBtn (Some e3)])%list |}
            end
          else
            r = {| outcome :=
                     exit_json {| changed := true; power_status := p;
                                  one_time_boot_status := d |};
                   world := w5; calls := retried |}
      end
  end.
Proof.
  intros -> Hp Hc Hssl Hilo Hpow Hboot Hne Hset d first.
  apply String.eqb_neq in Hne.
  subst r d first. unfold_run.
  rewrite Hp, Hssl. simpl. rewrite Hilo. simpl. rewrite Hpow. simpl.
  rewrite Hboot. simpl. rewrite Hc, Hne. simpl. rewrite Hset. simpl.
  destruct e1 as [m|m]; simpl.
  - destruct (set_one_time_boot hpilo ilo (device params) (sleep hpilo 60 w4))
      as [[[]|e2] w5]; simpl.
    + destruct (String.eqb p "OFF"); simpl.
      * destruct (press_pwr_btn hpilo ilo w5) as [[[]|e3] w6]; simpl;
          unfold count; simpl; (split; [lia|reflexivity]).
      * unfold count; simpl; split; [lia|reflexivity].
    + unfold count; simpl; split; [lia|reflexivity].
  - unfold count; simpl; split; [lia|reflexivity].
Qed.

(** No run makes more than two set calls or sleeps more than once, and it
    sleeps only between two set calls. *)
Lemma at_most_two_sets :
  count is_set (calls r) <= 2 /\
  count is_sleep (calls r) <= 1 /\
  (count is_sleep (calls r) = 1 -> count is_set (calls r) = 2).
Proof.
  subst r. run_cases.
  all: unfold count; simpl; repeat split; intros; lia.
Qed.

(** C7, amended.  When python-hpilo is missing, the module calls nothing on
    the client and leaves the world as it is; [AnsibleModule] has validated
    the parameters by then, so an invocation it accepts fails with the
    missing-library error naming python-hpilo, whatever the values of its
    parameters, and one it refuses fails with the argument error. *)
Theorem missing_lib_after_validation :
  HAS_HPILO = false ->
  calls r = [] /\ world r = w /\
  match AnsibleModule inv with
  | inl _ => outcome r = fail_json_missing_lib "python-hpilo"
  | inr e => outcome r = fail_json_args e
  end.
Proof.
  intros ->. subst r. unfold run_module.
  destruct (AnsibleModule inv); simpl; auto.
Qed.

End Laws.

(** ** Two runs in a row *)

Section TwoRuns.

Context {W Session : Type} (hpilo : Hpilo W Session) (mode : W -> string).
Hypothesis R : Retains hpilo mode.
Variables (HAS_HPILO : bool) (inv : Invocation) (params : Params).
Hypothesis Hparams : AnsibleModule inv = inl params.
Hypothesis Hcheck : check_mode inv = false.

(** A successful run outside check mode leaves the controller in the wanted
    mode, and reports that mode. *)
Lemma run_leaves_mode (w : W) (res : Result) :
  outcome (run_module hpilo HAS_HPILO inv w) = exit_json res ->
  mode (world (run_module hpilo HAS_HPILO inv w)) = device params /\
  one_time_boot_status res = device params.
Proof.
  revert Hparams Hcheck. run_cases.
  all: intros; str_facts; try discriminate.
  all: carry_mode R; ev_inv; split; simpl; congruence.
Qed.

(** On a controller already in the wanted mode nothing is changed,
    whatever the calls of the run meet. *)
Lemma run_in_mode (w : W) :
  mode w = device params ->
  let r := run_module hpilo HAS_HPILO inv w in
  count is_set (calls r) = 0 /\ count is_press (calls r) = 0 /\
  (forall res, reported (outcome r) = Some res -> changed res = false).
Proof.
  revert Hparams Hcheck. run_cases.
  all: intros; str_facts; try discriminate.
  all: try (carry_mode R; ev_inv; congruence).
  all: unfold count; simpl; repeat split; intros; ev_inv; auto.
Qed.

End TwoRuns.

(** The simulated controller retains its mode. *)
Lemma Sim_retains : Retains Sim.client Sim.boot.
Proof.
  split; simpl; unfold Sim.scripted.
  all: intros until w'; destruct w as [pw bt [|[e|] fs]]; simpl.
  all: intros H; try discriminate H; injection H; intros; subst; reflexivity.
Qed.

(** C1.  Outside check mode, when the boot query answers the wanted mode,
    the module makes no set-one-time-boot and no power-on call and exits
    with changed=false (first part).  Hence, on a controller nobody else
    acts on, a run with the same invocation, started after a successful one
    in a world whose mode is the one that run left, makes neither call,
    reports changed=false in whatever it reports, and exits with
    changed=false and the same mode unless one of its calls raises (second
    part). *)
Theorem already_in_mode_is_idempotent
    {W Session : Type} (hpilo : Hpilo W Session) (mode : W -> string)
    (HAS_HPILO : bool) (inv : Invocation) (params : Params) (w w2 : W) :
  Retains hpilo mode ->
  AnsibleModule inv = inl params ->
  check_mode inv = false ->
  let first := run_module hpilo HAS_HPILO inv w in
  let second := run_module hpilo HAS_HPILO inv w2 in
  (In (EvGetOneTimeBoot (inl (device params))) (calls first) ->
   count is_set (calls first) = 0 /\
   count is_press (calls first) = 0 /\
   exists p,
     In (EvGetHostPowerStatus (inl p)) (calls first) /\
     outcome first = exit_json {| changed := false; power_status := p;
                                  one_time_boot_status := device params |}) /\
  (forall res1,
     outcome first = exit_json res1 ->
     mode w2 = mode (world first) ->
     count is_set (calls second) = 0 /\
     count is_press (calls second) = 0 /\
     (forall res, reported (outcome second) = Some res ->
                  changed res = false) /\
     (forall b, In (EvGetOneTimeBoot (inl b)) (calls second) ->
      exists p,
        outcome second =
        exit_json {| changed := false; power_status := p;
                     one_time_boot_status := one_time_boot_status res1 |})).
Proof.
  intros R Hp Hc first second. split.
  - now apply already_in_mode.
  - intros res1 H1 Hw.
    destruct (run_leaves_mode hpilo mode R HAS_HPILO inv params Hp Hc w res1 H1)
      as [Hm Hr].
    fold first in Hm. rewrite Hm in Hw.
    destruct (run_in_mode hpilo mode R HAS_HPILO inv params Hp Hc w2 Hw)
      as (A & B & C).
    fold second in A, B, C.
    split; [exact A|]. split; [exact B|]. split; [exact C|].
    intros b Hb. rewrite Hr.
    assert (b = device params) as ->.
    { clear - R Hp Hc Hw Hb. subst second. revert Hp Hc Hb. run_cases.
      all: intros; str_facts; ev_inv; try discriminate.
      all: carry_mode R; congruence. }
    destruct (already_in_mode hpilo HAS_HPILO inv w2 params Hp Hc Hb)
      as (_ & _ & p & _ & Hout).
    exists p. exact Hout.
Qed.

(** ** The laws at work on the scenarios *)

Lemma already_in_mode_is_idempotent_witness :
  let inv := Sim.invoke "network" false in
  let first := Sim.run inv (Scenario.device_at "OFF" "normal" []) in
  let second := Sim.run inv (Sim.with_faults [] (world first)) in
  let res1 := {| changed := true; power_status := "BOOTING";
                 one_time_boot_status := "network" |} in
  AnsibleModule inv = inl Scenario.network_params /\
  check_mode inv = false /\
  outcome first = exit_json res1 /\
  count is_set (calls second) = 0 /\
  count is_press (calls second) = 0 /\
  exists p,
    outcome second =
    exit_json {| changed := false; power_status := p;
                 one_time_boot_status := one_time_boot_status res1 |}.
Proof.
  intros inv first second res1.
  assert (Ha : AnsibleModule inv = inl Scenario.network_params)
    by (vm_compute; reflexivity).
  assert (Hc : check_mode inv = false) by reflexivity.
  assert (H1 : outcome first = exit_json res1) by (vm_compute; reflexivity).
  assert (Hb : In (EvGetOneTimeBoot (inl "network")) (calls second))
    by (vm_compute; tauto).
  destruct (already_in_mode_is_idempotent Sim.client Sim.boot true inv
              Scenario.network_params
              (Scenario.device_at "OFF" "normal" [])
              (Sim.with_faults [] (world first))
              Sim_retains Ha Hc) as [_ H2].
  destruct (H2 res1 H1 eq_refl) as (A & B & _ & D).
  split; [exact Ha|]. split; [exact Hc|]. split; [exact H1|].
  split; [exact A|]. split; [exact B|]. exact (D _ Hb).
Defined.

Lemma check_mode_only_observes_witness :
  let inv := Sim.invoke "network" true in
  let r := Sim.run inv (Scenario.device_at "ON" "normal" []) in
  check_mode inv = true /\
  count is_set (calls r) = 0 /\
  count is_press (calls r) = 0 /\
  outcome r = exit_json {| changed := false; power_status := "ON";
                           one_time_boot_status := "normal" |}.
Proof.
  intros inv r.
  destruct (check_mode_only_observes Sim.client true inv
              (Scenario.device_at "ON" "normal" []) eq_refl)
    as (H1 & H2 & _ & H4).
  split; [reflexivity|]. split; [exact H1|]. split; [exact H2|].
  apply H4; vm_compute; tauto.
Defined.

Lemma handler_reports_defaults_witness :
  let r := Sim.run (Sim.invoke "network" false) Scenario.no_power in
  last_raised (calls r) = Some (OtherException "power button") /\
  outcome r = fail_json "power button" default_result.
Proof.
  intros r. split; [reflexivity|].
  exact (proj2 (handler_reports_defaults Sim.client true
                  (Sim.invoke "network" false) Scenario.no_power)
               (OtherException "power button") eq_refl).
Defined.


Lemma mutation_reports_desired_mode_witness :
  let inv := Sim.invoke "network" false in
  let r := Sim.run inv Scenario.busy_once in
  AnsibleModule inv = inl Scenario.network_params /\
  In (EvGetOneTimeBoot (inl "normal")) (calls r) /\
  device Scenario.network_params <> "normal" /\
  0 < count is_set_ok (calls r) /\
  count is_boot_query (calls r) = 1 /\
  (forall res, outcome r = exit_json res ->
               changed res = true /\ one_time_boot_status res = "network").
Proof.
  intros inv r.
  assert (Hin : In (EvGetOneTimeBoot (inl "normal")) (calls r))
    by (vm_compute; tauto).
  assert (Hne : device Scenario.network_params <> "normal") by discriminate.
  assert (Hok : 0 < count is_set_ok (calls r)) by (apply le_n).
  destruct (mutation_reports_desired_mode Sim.client true inv
              Scenario.busy_once Scenario.network_params "normal"
              eq_refl Hin Hne Hok) as (H1 & H2 & _).
  split; [reflexivity|]. split; [exact Hin|]. split; [exact Hne|].
  split; [exact Hok|]. split; [exact H1|exact H2].
Defined.

Lemma power_on_failure_reports_defaults_witness :
  let r := Sim.run (Sim.invoke "network" false) Scenario.no_power in
  In (EvPressPwrBtn (Some (OtherException "power button"))) (calls r) /\
  outcome r = fail_json "power button" default_result /\
  count is_set_ok (calls r) = 1.
Proof.
  intros r.
  assert (Hin : In (EvPressPwrBtn (Some (OtherException "power button")))
                   (calls r)) by (vm_compute; tauto).
  destruct (power_on_failure_reports_defaults Sim.client true
              (Sim.invoke "network" false) Scenario.no_power _ Hin)
    as (H1 & _ & H3).
  split; [exact Hin|]. split; [exact H1|exact H3].
Defined.

Lemma boot_query_failure_reports_defaults_witness :
  let r := Sim.run (Sim.invoke "network" false) Scenario.boot_query_fails in
  In (EvGetHostPowerStatus (inl "ON")) (calls r) /\
  In (EvGetOneTimeBoot (inr (OtherException "timed out"))) (calls r) /\
  outcome r = fail_json "timed out" default_result.
Proof.
  intros r.
  assert (H1 : In (EvGetHostPowerStatus (inl "ON")) (calls r))
    by (vm_compute; tauto).
  assert (H2 : In (EvGetOneTimeBoot (inr (OtherException "timed out")))
                  (calls r)) by (vm_compute; tauto).
  split; [exact H1|]. split; [exact H2|].
  exact (proj1 (boot_query_failure_reports_defaults Sim.client true
                  (Sim.invoke "network" false) Scenario.boot_query_fails
                  "ON" (OtherException "timed out") H1 H2)).
Defined.

Lemma retry_once_after_cooldown_witness :
  let inv := Sim.invoke "network" false in
  let r := Sim.run inv Scenario.busy_once in
  AnsibleModule inv = inl Scenario.network_params /\
  check_mode inv = false /\
  count is_set (calls r) <= 2 /\
  r = {| outcome := exit_json {| changed := true; power_status := "BOOTING";
                                 one_time_boot_status := "network" |};
         world := Scenario.device_at "ON" "network" [];
         calls := [EvIlo "ilo.example.org" "Administrator" "admin" 3 None;
                   EvGetHostPowerStatus (inl "OFF");
                   EvGetOneTimeBoot (inl "normal");
                   EvSetOneTimeBoot "network" (Some (IloError "busy"));
                   EvSleep 60;
                   EvSetOneTimeBoot "network" None;
                   EvPressPwrBtn None] |}.
Proof.
  intros inv r.
  assert (Hne : device Scenario.network_params <> "normal") by discriminate.
  split; [reflexivity|]. split; [reflexivity|].
  exact (retry_once_after_cooldown Sim.client true inv Scenario.busy_once
           Scenario.network_params 3%Z tt
           (Scenario.device_at "OFF" "normal" [None; None; Some (IloError "busy")])
           (Scenario.device_at "OFF" "normal" [None; Some (IloError "busy")])
           (Scenario.device_at "OFF" "normal" [Some (IloError "busy")])
           (Scenario.device_at "OFF" "normal" [])
           "OFF" "normal" (IloError "busy")
           eq_refl eq_refl eq_refl eq_refl eq_refl eq_refl eq_refl Hne eq_refl).
Defined.

Lemma missing_lib_after_validation_witness :
  let r := run_module Sim.client false (Sim.invoke "network" false)
             (Scenario.device_at "OFF" "normal" []) in
  calls r = [] /\
  outcome r = fail_json_missing_lib "python-hpilo".
Proof.
  intros r.
  destruct (missing_lib_after_validation Sim.client false
              (Sim.invoke "network" false)
              (Scenario.device_at "OFF" "normal" []) eq_refl)
    as (H1 & _ & H3).
  split; [exact H1|exact H3].
Defined.

(** ** Where the specification's wording and the module part *)

(** C3, as worded: the retry succeeds, and yet the run fails with
    changed=false, because the power button that follows raises. *)
Lemma retry_success_counterexample :
  let r := Sim.run (Sim.invoke "network" false) Scenario.busy_once_no_power in
  In (EvSetOneTimeBoot "network" (Some (IloError "busy"))) (calls r) /\
  In (EvSleep 60) (calls r) /\
  In (EvSetOneTimeBoot "network" None) (calls r) /\
  outcome r = fail_json "power button" default_result /\
  ~ (exists res, outcome r = exit_json res /\ changed res = true).
Proof.
  simpl. repeat split; try tauto.
  intros [res [H _]]. discriminate H.
Qed.

(** C5, as worded: the set succeeded and the power button failed, and the
    failure output has changed=false and one_time_boot_status UNKNOWN. *)
Lemma power_on_failure_counterexample :
  let r := Sim.run (Sim.invoke "network" false) Scenario.no_power in
  In (EvSetOneTimeBoot "network" None) (calls r) /\
  In (EvPressPwrBtn (Some (OtherException "power button"))) (calls r) /\
  outcome r = fail_json "power button" default_result /\
  ~ (exists msg res,
        outcome r = fail_json msg res /\
        changed res = true /\ one_time_boot_status res = "network").
Proof.
  simpl. repeat split; try tauto.
  intros (msg & res & H & Hc & _).
  injection H as _ <-. discriminate Hc.
Qed.

(** C6, as worded: the power query answered ON, the boot query raised, and
    the failure output carries UNKNOWN, not ON. *)
Lemma query_value_counterexample :
  let r := Sim.run (Sim.invoke "network" false) Scenario.boot_query_fails in
  In (EvGetHostPowerStatus (inl "ON")) (calls r) /\
  In (EvGetOneTimeBoot (inr (OtherException "timed out"))) (calls r) /\
  outcome r = fail_json "timed out" default_result /\
  ~ (exists msg res, outcome r = fail_json msg res /\ power_status res = "ON").
Proof.
  simpl. repeat split; try tauto.
  intros (msg & res & H & Hp).
  injection H as _ <-. discriminate Hp.
Qed.

(** C7, as worded: python-hpilo is missing and no host is given; the
    parameters are validated first, and the run fails with the argument
    error, not with the missing-library error. *)
Lemma missing_lib_counterexample :
  let r := run_module Sim.client false Scenario.no_host
             (Scenario.device_at "OFF" "normal" []) in
  outcome r = fail_json_args (MissingRequired "host") /\
  outcome r <> fail_json_missing_lib "python-hpilo".
Proof.
  simpl. split; [reflexivity|discriminate].
Qed.

(** * More laws of [run_module] *)

(** ** The protocol name, for any string *)

Lemma upper_char_idempotent (c : ascii) :
  PyStr.upper_char (PyStr.upper_char c) = PyStr.upper_char c.
Proof.
  destruct c as [[] [] [] [] [] [] [] []]; reflexivity.
Qed.

Lemma upper_char_replace_no_V (c : ascii) :
  (if Ascii.eqb (PyStr.upper_char c) "V" then "v"%char else PyStr.upper_char c)
  <> "V"%char.
Proof.
  destruct c as [[] [] [] [] [] [] [] []]; discriminate.
Qed.

(** X11.  The name built on line 122 does not depend on the case of the
    ASCII letters of [ssl_version], and never contains an upper-case 'V'. *)
Theorem protocol_name_normalises (s : string) :
  protocol_name (PyStr.upper s) = protocol_name s /\
  ~ In "V"%char (list_ascii_of_string (protocol_name s)).
Proof.
  unfold protocol_name. split.
  - f_equal. f_equal. induction s as [|c s IH]; simpl.
    + reflexivity.
    + now rewrite upper_char_idempotent, IH.
  - simpl. intros [H|[H|[H|[H|[H|[H|[H|[H|[H|H]]]]]]]]]; try discriminate H.
    induction s as [|c s IH]; simpl in H.
    + exact H.
    + destruct H as [H|H]; [|now apply IH].
      now apply (upper_char_replace_no_V c).
Qed.

(** ** What [AnsibleModule] accepts *)

(** X10.  An invocation is accepted exactly when the host is given and the
    ssl_version and the device, given or defaulted, are among their
    choices; the accepted parameters are the values given, with
    "Administrator", "admin", "TLSv1" and "network" for the absent ones. *)
Theorem AnsibleModule_params (inv : Invocation) (params : Params) :
  AnsibleModule inv = inl params <->
  arg_host inv = Some (host params) /\
  login params = with_default (arg_login inv) "Administrator" /\
  password params = with_default (arg_password inv) "admin" /\
  ssl_version params = with_default (arg_ssl_version inv) "TLSv1" /\
  In (ssl_version params) ssl_version_choices /\
  device params = with_default (arg_device inv) "network" /\
  In (device params) device_choices.
Proof.
  split.
  - intros H. pose proof (AnsibleModule_choices inv params H) as [Hs Hd].
    revert H. unfold AnsibleModule, check_arg.
    cbn [default choices required module_args.host module_args.login
         module_args.password module_args.ssl_version module_args.device].
    destruct (arg_host inv) as [h|]; [|discriminate].
    destruct (arg_login inv) as [l|], (arg_password inv) as [pw|],
      (arg_ssl_version inv) as [sv|], (arg_device inv) as [d|];
      cbn [with_default].
    all: repeat match goal with
         | |- context [if PyStr.mem ?x ?l then _ else _] =>
             destruct (PyStr.mem x l)
         end; try discriminate.
    all: intros H; injection H as <-; cbn [host login password ssl_version
                                            device] in *.
    all: repeat split; auto.
  - destruct params as [h l pw sv d]; cbn [host login password ssl_version
                                           device].
    intros (Hh & -> & -> & -> & Hs & -> & Hd).
    unfold AnsibleModule, check_arg.
    cbn [default choices required module_args.host module_args.login
         module_args.password module_args.ssl_version module_args.device].
    rewrite Hh.
    assert (Es : PyStr.mem (with_default (arg_ssl_version inv) "TLSv1")
                   ssl_version_choices = true).
    { unfold PyStr.mem. apply existsb_exists. eexists; split; [exact Hs|].
      apply String.eqb_refl. }
    assert (Ed : PyStr.mem (with_default (arg_device inv) "network")
                   device_choices = true).
    { unfold PyStr.mem. apply existsb_exists. eexists; split; [exact Hd|].
      apply String.eqb_refl. }
    destruct (arg_login inv), (arg_password inv), (arg_ssl_version inv),
      (arg_device inv); cbn [with_default] in *.
    all: rewrite ?Es, ?Ed; reflexivity.
Qed.

(** Cutting a trace after one of its events gives one of its [cuts]. *)
Lemma cut_in_cuts (t pre post : Trace) (e : Event) :
  t = (pre ++ e :: post)%list -> In (e, post) (cuts t).
Proof.
  intros ->. induction pre as [|x pre IH]; simpl; auto.
Qed.

(** For an accepted invocation the name built on line 122 is 'PROTOCOL_'
    followed by the ssl_version as given. *)
Lemma accepted_protocol_name (inv : Invocation) (params : Params) :
  AnsibleModule inv = inl params ->
  protocol_name (ssl_version params) = "PROTOCOL_" ++ ssl_version params.
Proof.
  intros Hp. destruct (AnsibleModule_choices inv params Hp) as [Hin _].
  unfold ssl_version_choices in Hin; simpl in Hin.
  destruct Hin as [<-|[<-|[<-|[<-|[<-|[]]]]]]; reflexivity.
Qed.

(** ** Laws of one run, continued *)

Section MoreLaws.

Context {W Session : Type} (hpilo : Hpilo W Session).
Variables (HAS_HPILO : bool) (inv : Invocation) (w : W).

Let r := run_module hpilo HAS_HPILO inv w.

(** X1.  The protocol constant is looked up outside the [try] block: when
    the [ssl] module has no attribute of that name, the run ends in an
    uncaught [AttributeError] for 'PROTOCOL_' followed by the ssl_version
    as given, reports no result field, and has called nothing on the
    client. *)
Theorem missing_constant_is_uncaught (params : Params) :
  HAS_HPILO = true ->
  AnsibleModule inv = inl params ->
  ssl_getattr hpilo (protocol_name (ssl_version params)) = None ->
  outcome r = uncaught_AttributeError ("PROTOCOL_" ++ ssl_version params) /\
  reported (outcome r) = None /\
  calls r = [] /\ world r = w.
Proof.
  intros -> Hp Hs. subst r. unfold run_module. rewrite Hp. simpl.
  rewrite Hs. simpl.
  destruct (AnsibleModule_choices inv params Hp) as [Hin _].
  unfold ssl_version_choices in Hin; simpl in Hin.
  destruct Hin as [<-|[<-|[<-|[<-|[<-|[]]]]]]; repeat split.
Qed.

(** X7.  The client is contacted exactly when the parameters are
    accepted, python-hpilo is there and the protocol constant is found; the
    first call is then the connection, made once, with the accepted host,
    login and password and with that constant. *)
Theorem contact_requires_preconditions :
  (calls r <> [] <->
   HAS_HPILO = true /\
   exists params v,
     AnsibleModule inv = inl params /\
     ssl_getattr hpilo ("PROTOCOL_" ++ ssl_version params) = Some v) /\
  (forall e rest,
     calls r = e :: rest ->
     count is_connect rest = 0 /\
     exists params v raised,
       AnsibleModule inv = inl params /\
       ssl_getattr hpilo ("PROTOCOL_" ++ ssl_version params) = Some v /\
       e = EvIlo (host params) (login params) (password params) v raised).
Proof.
  subst r. run_cases.
  all: try match goal with
       | H : AnsibleModule _ = inl ?p |- _ =>
           rewrite (accepted_protocol_name _ _ H) in *
       end.
  all: split; [split|].
  all: try (intros _; split; [reflexivity|]; do 2 eexists;
            split; [reflexivity|eassumption]).
  all: try (intros; discriminate).
  all: try (intros [Hh (p' & v' & Hp' & Hv')]; ev_inv; simpl in *;
            congruence).
  all: try (intros H; exfalso; apply H; reflexivity).
  all: intros e rest H; injection H as <- <-; split; [reflexivity|].
  all: do 3 eexists; split; [reflexivity|split; [eassumption|reflexivity]].
Qed.

(** X12.  A run ends in [exit_json] exactly when it contacted the client
    and its last call did not raise. *)
Theorem exits_iff_last_call_succeeds :
  (exists res, outcome r = exit_json res) <->
  calls r <> [] /\ last_raised (calls r) = None.
Proof.
  subst r. unfold last_raised. run_cases.
  all: simpl; split.
  all: try (intros [res H]; discriminate H).
  all: try (intros [H1 H2]; congruence).
  all: try (intros _; split; [discriminate|reflexivity]).
  all: intros _; eexists; reflexivity.
Qed.

(** X3.  A set-one-time-boot or power-button call is made only outside
    check mode and only after the connection and both queries succeeded,
    the boot query having answered another mode than the wanted one;
    nothing but set, sleep and power-button calls follows the two queries,
    so neither query is repeated. *)
Theorem mutation_follows_queries :
  0 < count is_set (calls r) + count is_press (calls r) ->
  check_mode inv = false /\
  exists params v p b rest,
    AnsibleModule inv = inl params /\
    b <> device params /\
    calls r = EvIlo (host params) (login params) (password params) v None
              :: EvGetHostPowerStatus (inl p)
              :: EvGetOneTimeBoot (inl b) :: rest /\
    forallb is_action rest = true.
Proof.
  subst r. run_cases.
  all: unfold count; simpl; intros; try lia.
  all: str_facts; split; [reflexivity|].
  all: do 5 eexists; (split; [reflexivity|]).
  all: split; [|split; reflexivity].
  all: congruence.
Qed.

(** X4.  Every set-one-time-boot call carries the accepted device
    parameter, which is 'network' or 'normal'. *)
Theorem set_carries_device (d : string) (e : option exn) :
  In (EvSetOneTimeBoot d e) (calls r) ->
  (d = "network" \/ d = "normal") /\
  exists params, AnsibleModule inv = inl params /\ d = device params.
Proof.
  subst r.
  destruct (AnsibleModule inv) as [params|err] eqn:Hp.
  - destruct (AnsibleModule_choices inv params Hp) as [_ Hin].
    unfold device_choices in Hin; simpl in Hin.
    revert Hp. run_cases.
    all: simpl; intros; ev_inv.
    all: split; [intuition congruence|eexists; split; reflexivity].
  - unfold run_module. rewrite Hp. simpl. tauto.
Qed.

(** X2.  No call follows a call that raised, but for the one retry: the
    only call that raises and is not the last one of the run is a
    set-one-time-boot raising [IloError], and what follows it starts with
    the sleep of 60. *)
Theorem no_call_after_failure (pre post : Trace) (e : Event) (x : exn) :
  calls r = (pre ++ e :: post)%list ->
  raised e = Some x ->
  post = [] \/
  exists d m e2 post',
    e = EvSetOneTimeBoot d (Some (IloError m)) /\
    post = EvSleep 60 :: EvSetOneTimeBoot d e2 :: post' /\
    count is_set post' = 0.
Proof.
  intros H. apply cut_in_cuts in H. revert H. subst r. run_cases.
  all: intros; cut_inv; simpl in *; try discriminate; auto.
  all: right; do 4 eexists; split; [reflexivity|split; reflexivity].
Qed.

(** X5.  A successful run reports a function of the two observed values:
    changed is true exactly when the run is outside check mode and the
    observed mode differs from the wanted one, which is also exactly when a
    set call succeeded; one_time_boot_status is then the wanted mode and
    power_status is BOOTING if OFF was observed; otherwise both are the
    observed values. *)
Theorem exit_result_formula (res : Result) :
  outcome r = exit_json res ->
  exists params p b,
    AnsibleModule inv = inl params /\
    In (EvGetHostPowerStatus (inl p)) (calls r) /\
    In (EvGetOneTimeBoot (inl b)) (calls r) /\
    let ch := negb (check_mode inv) && PyStr.ne (device params) b in
    res = {| changed := ch;
             power_status :=
               if ch && String.eqb p "OFF" then "BOOTING" else p;
             one_time_boot_status := if ch then device params else b |} /\
    (ch = true <-> 0 < count is_set_ok (calls r)).
Proof.
  subst r. unfold PyStr.ne. run_cases.
  all: simpl; intros; ev_inv; try discriminate.
  all: do 3 eexists; (split; [reflexivity|]).
  all: split; [simpl; eauto 6|]; (split; [simpl; eauto 6|]).
  all: simpl.
  all: repeat match goal with
       | H : String.eqb _ _ = _ |- _ => rewrite H
       end; simpl.
  all: unfold count; simpl; split; [reflexivity|]; split; intros; try lia;
    try discriminate; auto.
Qed.

(** X6.  The module sleeps only as part of the retry: a sleep is always of
    60 and sits between a set call that raised [IloError] and a second set
    call with the same mode, after the connection and the two queries; and
    a run that makes set calls makes one more of them than it sleeps. *)
Theorem sleep_only_for_retry :
  (forall n, In (EvSleep n) (calls r) ->
     n = 60%Z /\
     exists c q1 q2 d m e2 post,
       calls r = c :: q1 :: q2
                 :: EvSetOneTimeBoot d (Some (IloError m))
                 :: EvSleep 60 :: EvSetOneTimeBoot d e2 :: post /\
       count is_sleep post = 0 /\ count is_set post = 0) /\
  (0 < count is_set (calls r) ->
   count is_set (calls r) = S (count is_sleep (calls r))).
Proof.
  subst r. run_cases.
  all: unfold count; simpl; split; intros; ev_inv; try lia.
  all: split; [reflexivity|].
  all: do 7 eexists; split; [reflexivity|split; reflexivity].
Qed.

End MoreLaws.

(** ** What a run does to the controller *)

Section Effects.

Context {W Session : Type} (hpilo : Hpilo W Session) (mode : W -> string).
Hypothesis R : Retains hpilo mode.
Variables (HAS_HPILO : bool) (inv : Invocation) (w : W).

Let r := run_module hpilo HAS_HPILO inv w.

(** X8.  On a controller nobody else acts on, a run that makes no
    set-one-time-boot call leaves the boot mode as it found it; so does
    every run in check mode, and every run that finds the wanted mode. *)
Theorem untouched_without_set :
  (count is_set (calls r) = 0 -> mode (world r) = mode w) /\
  (check_mode inv = true -> mode (world r) = mode w) /\
  (forall params, AnsibleModule inv = inl params ->
                  mode w = device params -> mode (world r) = mode w).
Proof.
  subst r. run_cases.
  all: unfold count; simpl; repeat split; intros; try discriminate.
  all: str_facts; ev_inv; carry_mode R; try congruence.
Qed.

(** X9.  On a controller nobody else acts on, the one_time_boot_status of
    a successful result, although it is not read back after a set, is the
    mode the controller is in when the run ends. *)
Theorem reported_mode_is_actual (res : Result) :
  outcome r = exit_json res ->
  one_time_boot_status res = mode (world r).
Proof.
  subst r. run_cases.
  all: simpl; intros; ev_inv; try discriminate.
  all: str_facts; carry_mode R; simpl; congruence.
Qed.

End Effects.

(** ** The further laws at work on the scenarios *)

Lemma missing_constant_is_uncaught_witness :
  let r := run_module no_sslv3_client true sslv3_invocation
             (Scenario.device_at "OFF" "normal" []) in
  AnsibleModule sslv3_invocation = inl sslv3_params /\
  ssl_getattr no_sslv3_client (protocol_name (ssl_version sslv3_params))
  = None /\
  outcome r = uncaught_AttributeError "PROTOCOL_SSLv3" /\
  calls r = [].
Proof.
  intros r.
  assert (Ha : AnsibleModule sslv3_invocation = inl sslv3_params)
    by (vm_compute; reflexivity).
  assert (Hs : ssl_getattr no_sslv3_client
                 (protocol_name (ssl_version sslv3_params)) = None)
    by (vm_compute; reflexivity).
  destruct (missing_constant_is_uncaught no_sslv3_client true
              sslv3_invocation (Scenario.device_at "OFF" "normal" [])
              sslv3_params eq_refl Ha Hs) as (H1 & _ & H3 & _).
  split; [exact Ha|]. split; [exact Hs|]. split; [exact H1|exact H3].
Defined.

Lemma contact_requires_preconditions_witness :
  let inv := Sim.invoke "network" true in
  let w := Scenario.device_at "ON" "normal" [] in
  calls (Sim.run inv w) <> [] /\
  ~ calls (run_module Sim.client false inv w) <> [].
Proof.
  intros inv w. split.
  - apply (proj2 (proj1 (contact_requires_preconditions Sim.client true
                           inv w))).
    split; [reflexivity|].
    exists Scenario.network_params, 3%Z.
    split; vm_compute; reflexivity.
  - intros H.
    apply (proj1 (proj1 (contact_requires_preconditions Sim.client false
                           inv w))) in H.
    destruct H as [Hf _]. discriminate Hf.
Defined.

Lemma exits_iff_last_call_succeeds_witness :
  let r := Sim.run (Sim.invoke "network" false) Scenario.busy_once in
  calls r <> [] /\ last_raised (calls r) = None /\
  exists res, outcome r = exit_json res.
Proof.
  intros r.
  assert (H1 : calls r <> []) by (vm_compute; discriminate).
  assert (H2 : last_raised (calls r) = None) by (vm_compute; reflexivity).
  split; [exact H1|]. split; [exact H2|].
  exact (proj2 (exits_iff_last_call_succeeds Sim.client true
                  (Sim.invoke "network" false) Scenario.busy_once)
               (conj H1 H2)).
Defined.

Lemma mutation_follows_queries_witness :
  let inv := Sim.invoke "network" false in
  let r := Sim.run inv (Scenario.device_at "OFF" "normal" []) in
  0 < count is_set (calls r) + count is_press (calls r) /\
  check_mode inv = false /\
  exists params v p b rest,
    AnsibleModule inv = inl params /\
    b <> device params /\
    calls r = EvIlo (host params) (login params) (password params) v None
              :: EvGetHostPowerStatus (inl p)
              :: EvGetOneTimeBoot (inl b) :: rest /\
    forallb is_action rest = true.
Proof.
  intros inv r.
  assert (H : 0 < count is_set (calls r) + count is_press (calls r))
    by (vm_compute; repeat constructor).
  split; [exact H|].
  exact (mutation_follows_queries Sim.client true inv
           (Scenario.device_at "OFF" "normal" []) H).
Defined.

Lemma set_carries_device_witness :
  let inv := Sim.invoke "network" false in
  let r := Sim.run inv Scenario.busy_once in
  In (EvSetOneTimeBoot "network" None) (calls r) /\
  ("network" = "network" \/ "network" = "normal") /\
  exists params, AnsibleModule inv = inl params /\ "network" = device params.
Proof.
  intros inv r.
  assert (H : In (EvSetOneTimeBoot "network" None) (calls r))
    by (vm_compute; tauto).
  split; [exact H|].
  exact (set_carries_device Sim.client true inv Scenario.busy_once
           "network" None H).
Defined.

Lemma no_call_after_failure_witness :
  let r := Sim.run (Sim.invoke "network" false) Scenario.busy_once in
  let pre := [EvIlo "ilo.example.org" "Administrator" "admin" 3 None;
              EvGetHostPowerStatus (inl "OFF");
              EvGetOneTimeBoot (inl "normal")] in
  let e := EvSetOneTimeBoot "network" (Some (IloError "busy")) in
  let post := [EvSleep 60; EvSetOneTimeBoot "network" None;
               EvPressPwrBtn None] in
  calls r = (pre ++ e :: post)%list /\
  raised e = Some (IloError "busy") /\
  (post = [] \/
   exists d m e2 post',
     e = EvSetOneTimeBoot d (Some (IloError m)) /\
     post = EvSleep 60 :: EvSetOneTimeBoot d e2 :: post' /\
     count is_set post' = 0).
Proof.
  intros r pre e post.
  assert (H : calls r = (pre ++ e :: post)%list) by (vm_compute; reflexivity).
  split; [exact H|]. split; [reflexivity|].
  exact (no_call_after_failure Sim.client true (Sim.invoke "network" false)
           Scenario.busy_once pre post e (IloError "busy") H eq_refl).
Defined.

Lemma exit_result_formula_witness :
  let inv := Sim.invoke "network" false in
  let r := Sim.run inv (Scenario.device_at "OFF" "normal" []) in
  let res := {| changed := true; power_status := "BOOTING";
                one_time_boot_status := "network" |} in
  outcome r = exit_json res /\
  exists params p b,
    AnsibleModule inv = inl params /\
    In (EvGetHostPowerStatus (inl p)) (calls r) /\
    In (EvGetOneTimeBoot (inl b)) (calls r) /\
    let ch := negb (check_mode inv) && PyStr.ne (device params) b in
    res = {| changed := ch;
             power_status :=
               if ch && String.eqb p "OFF" then "BOOTING" else p;
             one_time_boot_status := if ch then device params else b |} /\
    (ch = true <-> 0 < count is_set_ok (calls r)).
Proof.
  intros inv r res.
  assert (H : outcome r = exit_json res) by (vm_compute; reflexivity).
  split; [exact H|].
  exact (exit_result_formula Sim.client true inv
           (Scenario.device_at "OFF" "normal" []) res H).
Defined.

Lemma sleep_only_for_retry_witness :
  let r := Sim.run (Sim.invoke "network" false) Scenario.busy_once in
  In (EvSleep 60) (calls r) /\
  count is_set (calls r) = S (count is_sleep (calls r)).
Proof.
  intros r.
  destruct (sleep_only_for_retry Sim.client true (Sim.invoke "network" false)
              Scenario.busy_once) as [_ H].
  split; [vm_compute; tauto|].
  apply H. vm_compute. repeat constructor.
Defined.

Lemma untouched_without_set_witness :
  let inv := Sim.invoke "network" true in
  let w := Scenario.device_at "ON" "normal" [] in
  check_mode inv = true /\
  Sim.boot (world (Sim.run inv w)) = Sim.boot w.
Proof.
  intros inv w. split; [reflexivity|].
  exact (proj1 (proj2 (untouched_without_set Sim.client Sim.boot Sim_retains
                         true inv w)) eq_refl).
Defined.

Lemma reported_mode_is_actual_witness :
  let inv := Sim.invoke "network" false in
  let r := Sim.run inv Scenario.busy_once in
  let res := {| changed := true; power_status := "BOOTING";
                one_time_boot_status := "network" |} in
  outcome r = exit_json res /\
  one_time_boot_status res = Sim.boot (world r).
Proof.
  intros inv r res.
  assert (H : outcome r = exit_json res) by (vm_compute; reflexivity).
  split; [exact H|].
  exact (reported_mode_is_actual Sim.client Sim.boot Sim_retains true inv
           Scenario.busy_once res H).
Defined.
